(** * Expense Tracker API: a shallow embedding of [main.py]

    The handlers of the FastAPI application are embedded as functions over an
    explicit model of the MongoDB collection ["expense"].

    - An amount is a finite binary64 number, held by its exact value (a
      rational, [Qc]). How the store adds and subtracts such numbers is an
      input, the class [Arithmetic]: the theorems hold whatever the rounding
      is.
    - A handler runs in the monad [py]: it threads the store (the documents
      and the log of operations sent to the store) and either returns a value
      or raises a Python exception.
    - Store operations always answer (no connectivity or encoding failure).
    - What [bson] and [datetime] provide ([ObjectId], [str], [isoformat]) and
      what the environment provides (the clock, the identifier a new document
      gets) are inputs of the handlers. *)

From Stdlib Require Import ZArith QArith Qcanon String Ascii Lia.
From stdpp Require Import base numbers option list sorting gmap strings.

Local Open Scope string_scope.
Local Open Scope Z_scope.

(** ** Python values *)

(** [datetime.date]. *)
Record date := Date { year : Z; month : Z; day : Z }.

(** [datetime.datetime]: a calendar date and the microseconds since midnight. *)
Record datetime := DateTime { date_part : date; time_of_day : Z }.

Definition is_leap (y : Z) : bool :=
  ((y mod 4 =? 0) && negb (y mod 100 =? 0)) || (y mod 400 =? 0).

Definition days_in_month (y m : Z) : Z :=
  if m =? 2 then (if is_leap y then 29 else 28)
  else if (m =? 4) || (m =? 6) || (m =? 9) || (m =? 11) then 30
  else 31.

(** The dates [datetime.date] can hold (MINYEAR = 1, MAXYEAR = 9999). *)
Definition valid_date (d : date) : bool :=
  (1 <=? year d) && (year d <=? 9999) &&
  (1 <=? month d) && (month d <=? 12) &&
  (1 <=? day d) && (day d <=? days_in_month (year d) (month d)).

(** Truth value of an [Optional[int]]: [None] and [0] are false. *)
Definition truthy (o : option Z) : bool :=
  match o with
  | Some z => negb (z =? 0)
  | None => false
  end.

(** [now.year] of a [datetime]. *)
Definition year_of (now : datetime) : Z := year (date_part now).

(** Python's [a or b] on an [Optional[int]] and an [int]. *)
Definition por (a : option Z) (b : Z) : Z :=
  match a with
  | Some z => if z =? 0 then b else z
  | None => b
  end.

(** ** Request bodies *)

(** A store identifier: the twelve bytes of a [bson.ObjectId], as a number. *)
Definition oid : Type := N.

Module ExpenseCreate.
Record t := Build
  { date : date; description : string; amount : Qc; kind : string }.
End ExpenseCreate.

(** In [ExpenseUpdate], [date: Optional[date] = None] binds the name [date]
    to [None] before its annotation is read, so the annotation reads
    [Optional[None]]: the field holds [None] and nothing else, and a request
    that carries a date is refused before the handler runs. *)
Module ExpenseUpdate.
Record t := Build
  { date : option Empty_set; description : option string;
    amount : option Qc; kind : option string }.
End ExpenseUpdate.

(** ** Stored documents *)

Module Doc.
Record t := Build
  { _id : oid; date : date; description : string; amount : Qc; kind : string;
    created_at : datetime; updated_at : datetime }.
End Doc.

(** What PyMongo's [$set] receives from [update_expense]: the fields of the
    dict [updates], each present or absent. *)
Module Updates.
Record t := Build
  { date : option date; description : option string;
    amount : option Qc; kind : option string;
    updated_at : option datetime }.

(** [not updates]: the dict has no key. *)
Definition is_empty (u : t) : bool :=
  match date u, description u, amount u, kind u, updated_at u with
  | None, None, None, None, None => true
  | _, _, _, _, _ => false
  end.
End Updates.

(** ** Responses *)

Record create_result := { id : string }.
Record update_result := { updated : bool }.
Record delete_result := { deleted : bool }.

Record summary := Summary
  { total_debit : Qc; total_credit : Qc; balance : Qc }.

Module ChartEntry.
Record t := Build { month : Z; debit : Qc; credit : Qc }.
End ChartEntry.

(** A document as [serialize_doc] leaves it. *)
Module Serialized.
Record t := Build
  { id : string; date : string; description : string; amount : Qc;
    kind : string; created_at : string; updated_at : string }.
End Serialized.

(** ** The store: MongoDB's collection [expense] *)

(** The aggregation expressions the handlers build. *)
#[warnings="-register-all"]
Inductive expr :=
| EqMonth (m : Z)           (* {"$eq": [{"$month": "$date"}, m]} *)
| EqYear (y : Z)            (* {"$eq": [{"$year": "$date"}, y]} *)
| And (parts : list expr).  (* {"$and": parts} *)

(** The filters the handlers build. *)
Inductive query :=
| Everything                (* {} *)
| Expr (e : expr)           (* {"$expr": e} *)
| IdIs (i : oid).           (* {"_id": i} *)

(** The two aggregations after their optional [$match] stage. *)
Inductive grouping :=
| Totals      (* $group with _id None, then $project with balance *)
| ByMonth.    (* $group by {"$month": "$date"}, $project, $sort by month *)

(** The operations sent to the store. *)
Inductive db_op :=
| InsertOne (d : Doc.t)
| Find (q : query)
| Aggregate (match_stage : option expr) (g : grouping)
| UpdateOne (q : query) (u : Updates.t)
| DeleteOne (q : query).

(** The collection in its natural order, and every operation it was sent. *)
Record mongo := Mongo { expense : list Doc.t; oplog : list db_op }.

(** [{"$month": "$date"}] and [{"$year": "$date"}] on a document. *)
Definition doc_month (d : Doc.t) : Z := month (Doc.date d).
Definition doc_year (d : Doc.t) : Z := year (Doc.date d).

Fixpoint eval_expr (e : expr) (d : Doc.t) : bool :=
  match e with
  | EqMonth m => doc_month d =? m
  | EqYear y => doc_year d =? y
  | And parts => forallb (fun p => eval_expr p d) parts
  end.

Definition matches (q : query) (d : Doc.t) : bool :=
  match q with
  | Everything => true
  | Expr e => eval_expr e d
  | IdIs i => bool_decide (Doc._id d = i)
  end.

(** A [datetime] as the store keeps it: BSON holds whole milliseconds, the
    rest of the microseconds is cut. *)
Definition bson_datetime (t : datetime) : datetime :=
  DateTime (date_part t) (time_of_day t / 1000 * 1000).

(** [{"$set": u}] on one document. *)
Definition set_fields (u : Updates.t) (d : Doc.t) : Doc.t :=
  Doc.Build (Doc._id d)
    (default (Doc.date d) (Updates.date u))
    (default (Doc.description d) (Updates.description u))
    (default (Doc.amount d) (Updates.amount u))
    (default (Doc.kind d) (Updates.kind u))
    (Doc.created_at d)
    (default (Doc.updated_at d) (bson_datetime <$> Updates.updated_at u)).

(** [update_one]: the first document that matches is modified; the count of
    matched documents comes with the new collection. *)
Fixpoint modify_first (q : query) (u : Updates.t) (docs : list Doc.t)
  : Z * list Doc.t :=
  match docs with
  | [] => (0, [])
  | d :: rest =>
      if matches q d then (1, set_fields u d :: rest)
      else let '(n, rest') := modify_first q u rest in (n, d :: rest')
  end.

(** [delete_one]: the first document that matches is removed. *)
Fixpoint remove_first (q : query) (docs : list Doc.t) : Z * list Doc.t :=
  match docs with
  | [] => (0, [])
  | d :: rest =>
      if matches q d then (1, rest)
      else let '(n, rest') := remove_first q rest in (n, d :: rest')
  end.

(** The arithmetic of the store. [$sum] is an accumulator: it starts, takes
    the values of a group one at a time in the order of the documents, and
    yields a number; [$subtract] takes two numbers. Nothing is said of how
    they round. *)
Class Arithmetic := {
  accumulator : Type;
  acc_start : accumulator;
  acc_add : accumulator -> Qc -> accumulator;
  acc_total : accumulator -> Qc;
  subtract : Qc -> Qc -> Qc
}.

(** What [$sum] yields for a list of values. *)
Definition store_sum `{Arithmetic} (values : list Qc) : Qc :=
  acc_total (foldl acc_add acc_start values).

(** What binary64 arithmetic does with zero: a [$sum] that takes the value
    [0] is left as it was, a [$sum] that took nothing yields [0], and
    [0 - 0] is [0]. *)
Definition zero_is_neutral `{Arithmetic} : Prop :=
  (forall a, acc_add a 0%Qc = a)
  /\ acc_total acc_start = 0%Qc
  /\ subtract 0%Qc 0%Qc = 0%Qc.

(** [{"$cond": [{"$eq": ["$kind", k]}, "$amount", 0]}]. *)
Definition cond_amount (k : string) (d : Doc.t) : Qc :=
  if String.eqb (Doc.kind d) k then Doc.amount d else 0%Qc.

(** The accumulator of [{"$sum": {"$cond": ...}}] after the documents of
    one group, and the number it yields. *)
Definition acc_cond `{Arithmetic} (k : string) (docs : list Doc.t)
  : accumulator :=
  foldl (fun acc d => acc_add acc (cond_amount k d)) acc_start docs.

Definition sum_cond `{Arithmetic} (k : string) (docs : list Doc.t) : Qc :=
  acc_total (acc_cond k docs).

(** [$group] with [_id: None] followed by the [$project] that adds
    [balance]: one document, or none when nothing reaches the stage. *)
Definition group_totals `{Arithmetic} (docs : list Doc.t) : list summary :=
  match docs with
  | [] => []
  | _ =>
      let total_debit := sum_cond "debit" docs in
      let total_credit := sum_cond "credit" docs in
      [Summary total_debit total_credit (subtract total_credit total_debit)]
  end.

(** A group of the [$group] by month: its key and its two [$sum]s. *)
Module MonthGroup.
Record t `{Arithmetic} := Build
  { month : Z; debit : accumulator; credit : accumulator }.
End MonthGroup.

(** [$group] by month, one document at a time: the document joins the group
    of its month, or opens one. *)
Fixpoint add_to_group `{Arithmetic} (d : Doc.t) (groups : list MonthGroup.t)
  : list MonthGroup.t :=
  match groups with
  | [] =>
      [MonthGroup.Build _ (doc_month d)
         (acc_add acc_start (cond_amount "debit" d))
         (acc_add acc_start (cond_amount "credit" d))]
  | g :: rest =>
      if MonthGroup.month g =? doc_month d
      then MonthGroup.Build _ (MonthGroup.month g)
             (acc_add (MonthGroup.debit g) (cond_amount "debit" d))
             (acc_add (MonthGroup.credit g) (cond_amount "credit" d)) :: rest
      else g :: add_to_group d rest
  end.

Definition group_by_month `{Arithmetic} (docs : list Doc.t)
  : list MonthGroup.t :=
  foldl (fun groups d => add_to_group d groups) [] docs.

(** [{"$project": {"_id": 0, "month": "$_id.month", "debit": 1,
    "credit": 1}}] on one group. *)
Definition project_month `{Arithmetic} (g : MonthGroup.t) : ChartEntry.t :=
  ChartEntry.Build (MonthGroup.month g) (acc_total (MonthGroup.debit g))
    (acc_total (MonthGroup.credit g)).

(** The order of [{"$sort": {"month": 1}}]. *)
Definition month_le (a b : ChartEntry.t) : Prop :=
  ChartEntry.month a <= ChartEntry.month b.

#[local] Instance month_le_dec a b : Decision (month_le a b) :=
  Z_le_dec (ChartEntry.month a) (ChartEntry.month b).

Definition sort_by_month (rows : list ChartEntry.t) : list ChartEntry.t :=
  merge_sort month_le rows.

Definition stage_match (match_stage : option expr) (docs : list Doc.t)
  : list Doc.t :=
  match match_stage with
  | Some e => filter (fun d => eval_expr e d = true) docs
  | None => docs
  end.

(** ** Handlers as computations over the store *)

Inductive exn :=
| HTTPException (status_code : Z) (detail : string)
| InvalidId (oid : string).   (* bson.errors.InvalidId *)

Inductive outcome (A : Type) :=
| Return (a : A)
| Raise (e : exn).
Arguments Return {A} a.
Arguments Raise {A} e.

(** The status of the response FastAPI sends: an [HTTPException] carries its
    own, any other exception that leaves a handler is a server error. *)
Definition response_status {A} (o : outcome A) : Z :=
  match o with
  | Return _ => 200
  | Raise (HTTPException status_code _) => status_code
  | Raise (InvalidId _) => 500
  end.

Definition py (A : Type) : Type := mongo -> outcome A * mongo.

#[local] Instance py_ret : MRet py := fun A a s => (Return a, s).

#[local] Instance py_bind : MBind py := fun A B k c s =>
  match c s with
  | (Return a, s') => k a s'
  | (Raise e, s') => (Raise e, s')
  end.

Definition raise {A} (e : exn) : py A := fun s => (Raise e, s).

Definition sent (op : db_op) (s : mongo) : list db_op := oplog s ++ [op].

(** [db["expense"].insert_one(d)], giving [inserted_id]. *)
Definition insert_one (d : Doc.t) : py oid := fun s =>
  (Return (Doc._id d), Mongo (expense s ++ [d]) (sent (InsertOne d) s)).

(** [list(db["expense"].find(q))]. *)
Definition find (q : query) : py (list Doc.t) := fun s =>
  (Return (filter (fun d => matches q d = true) (expense s)),
   Mongo (expense s) (sent (Find q) s)).

(** [db["expense"].update_one(q, {"$set": u})], giving [matched_count]. *)
Definition update_one (q : query) (u : Updates.t) : py Z := fun s =>
  let '(matched_count, docs) := modify_first q u (expense s) in
  (Return matched_count, Mongo docs (sent (UpdateOne q u) s)).

(** [db["expense"].delete_one(q)], giving [deleted_count]. *)
Definition delete_one (q : query) : py Z := fun s =>
  let '(deleted_count, docs) := remove_first q (expense s) in
  (Return deleted_count, Mongo docs (sent (DeleteOne q) s)).

(** [list(db["expense"].aggregate(pipeline))] for the pipeline of
    [get_summary]. *)
Definition aggregate_totals `{Arithmetic} (match_stage : option expr)
  : py (list summary) :=
  fun s =>
    (Return (group_totals (stage_match match_stage (expense s))),
     Mongo (expense s) (sent (Aggregate match_stage Totals) s)).

(** [list(db["expense"].aggregate(pipeline))] for the pipeline of
    [monthly_chart]. *)
Definition aggregate_by_month `{Arithmetic} (match_stage : option expr)
  : py (list ChartEntry.t) :=
  fun s =>
    (Return (sort_by_month
               (project_month
                  <$> group_by_month (stage_match match_stage (expense s)))),
     Mongo (expense s) (sent (Aggregate match_stage ByMonth) s)).

(** ** The diagnostic handlers *)

(** The message of [read_root]. *)
Definition read_root : string := "Expense Tracker Backend Running".

(** What [test_database] reads of the handle [db] of the module
    [database]. [name] is what reading the attribute gives: [db.name], or
    [None] when [db] has no such attribute, or the text [str(e)] of the
    exception the reading raises. [list_collection_names] is the list the
    call returns, or the text [str(e)] of the exception it raises. *)
Record database := Database
  { name : string + option string;
    list_collection_names : string + list string }.

(** A text is held as the bytes of its UTF-8 form. A byte [10xxxxxx]
    continues a character, any other byte starts one. *)
Definition continues_character (c : ascii) : bool :=
  let n := N_of_ascii c in (128 <=? n)%N && (n <? 192)%N.


(** [s[:n]]: the first [n] characters. *)
Fixpoint first_characters (n : nat) (s : string) : string :=
  match s with
  | EmptyString => EmptyString
  | String c rest =>
      if continues_character c then String c (first_characters n rest)
      else
        match n with
        | O => EmptyString
        | S n' => String c (first_characters n' rest)
        end
  end.

Module Health.
Record t := Build
  { backend : string; database : string;
    database_url : option string; database_name : option string;
    connection_status : string; collections : list string }.

Definition set_database (v : string) (r : t) : t :=
  Build (backend r) v (database_url r) (database_name r)
    (connection_status r) (collections r).

Definition set_database_url (v : string) (r : t) : t :=
  Build (backend r) (database r) (Some v) (database_name r)
    (connection_status r) (collections r).

Definition set_database_name (v : string) (r : t) : t :=
  Build (backend r) (database r) (database_url r) (Some v)
    (connection_status r) (collections r).

Definition set_connection_status (v : string) (r : t) : t :=
  Build (backend r) (database r) (database_url r) (database_name r)
    v (collections r).

Definition set_collections (v : list string) (r : t) : t :=
  Build (backend r) (database r) (database_url r) (database_name r)
    (connection_status r) v.
End Health.

(** The truth value of [os.getenv(k)]: a variable that is not set, or is
    set to the empty string, is false. *)
Definition env_truthy (v : option string) : bool :=
  match v with
  | Some "" => false
  | Some _ => true
  | None => false
  end.

(** [db] is the handle, [None] when there is none; [getenv] is [os.getenv].
    Inside the outer [try], reading [db.name] is what can raise; the inner
    [try] guards the listing. *)
Definition test_database (db : option database)
    (getenv : string -> option string) : Health.t :=
  let response :=
    Health.Build "✅ Running" "❌ Not Available" None None "Not Connected" [] in
  let response :=
    match db with
    | Some db =>
        let response := Health.set_database "✅ Available" response in
        let response := Health.set_database_url "✅ Configured" response in
        match name db with
        | inr name =>
            let response :=
              Health.set_database_name (default "✅ Connected" name) response in
            let response := Health.set_connection_status "Connected" response in
            match list_collection_names db with
            | inr collections =>
                let response :=
                  Health.set_collections (take 10 collections) response in
                Health.set_database "✅ Connected & Working" response
            | inl e =>
                Health.set_database
                  ("⚠️  Connected but Error: " ++ first_characters 50 e) response
            end
        | inl e =>
            Health.set_database ("❌ Error: " ++ first_characters 50 e) response
        end
    | None => Health.set_database "⚠️  Available but not initialized" response
    end in
  let response :=
    Health.set_database_url
      (if env_truthy (getenv "DATABASE_URL") then "✅ Set" else "❌ Not Set")
      response in
  let response :=
    Health.set_database_name
      (if env_truthy (getenv "DATABASE_NAME") then "✅ Set" else "❌ Not Set")
      response in
  response.

(** ** A concrete reading of the library calls, and sample data

    The handlers take [ObjectId], [str], [isoformat] and the arithmetic of
    the store as inputs. The examples run them on the readings below. *)

Definition hex_digit (c : ascii) : option N :=
  let n := N_of_ascii c in
  if (48 <=? n)%N && (n <=? 57)%N then Some (n - 48)%N
  else if (97 <=? n)%N && (n <=? 102)%N then Some (n - 87)%N
  else if (65 <=? n)%N && (n <=? 70)%N then Some (n - 55)%N
  else None.

(** ASCII whitespace, which [bytes.fromhex] skips before a byte. *)
Definition is_space (c : ascii) : bool :=
  let n := N_of_ascii c in
  (n =? 32)%N || ((9 <=? n)%N && (n <=? 13)%N).

(** [bytes.fromhex(s)]: each byte is written by two hexadecimal digits side
    by side; whitespace may stand before a byte and at the end; [None]
    where [fromhex] raises [ValueError]. *)
Fixpoint fromhex (s : string) : option (list N) :=
  match s with
  | EmptyString => Some []
  | String c rest =>
      if is_space c then fromhex rest
      else
        match hex_digit c, rest with
        | Some high, String c' rest' =>
            match hex_digit c' with
            | Some low => cons (16 * high + low)%N <$> fromhex rest'
            | None => None
            end
        | _, _ => None
        end
  end.

(** The bytes of an identifier as a number: twelve bytes are the number
    they write; fewer bytes, which [ObjectId] takes from a text of 24
    characters with whitespace in it, are a number above all of those, one
    for each list of bytes. *)
Definition oid_of_bytes (bytes : list N) : oid :=
  let value := foldl (fun acc b => 256 * acc + b)%N 0%N bytes in
  if (length bytes =? 12)%nat then value
  else (value + 2 ^ 96 * N.of_nat (S (length bytes)))%N.

(** [ObjectId(s)] for a [str]: 24 characters that [bytes.fromhex] reads. *)
Definition ObjectId_hex (s : string) : option oid :=
  if (String.length s =? 24)%nat then oid_of_bytes <$> fromhex s else None.

Definition hex_char (v : N) : ascii :=
  if (v <? 10)%N then ascii_of_N (48 + v) else ascii_of_N (87 + v).

Fixpoint hex_digits (n : nat) (v : N) (acc : string) : string :=
  match n with
  | O => acc
  | S n' => hex_digits n' (v / 16)%N (String (hex_char (v mod 16)%N) acc)
  end.

(** [str(i)]: two hexadecimal digits for each byte of the identifier. *)
Definition str_hex (i : oid) : string :=
  if (i <? 2 ^ 96)%N then hex_digits 24 i ""
  else hex_digits (2 * pred (N.to_nat (i / 2 ^ 96))) (i mod 2 ^ 96)%N "".

Fixpoint dec_digits (n : nat) (v : Z) (acc : string) : string :=
  match n with
  | O => acc
  | S n' =>
      dec_digits n' (v / 10) (String (ascii_of_N (48 + Z.to_N (v mod 10))) acc)
  end.

Definition date_iso (d : date) : string :=
  dec_digits 4 (year d) "" ++ "-" ++ dec_digits 2 (month d) "" ++ "-"
    ++ dec_digits 2 (day d) "".

(** [t.isoformat()]: the fraction of the second is written, with six
    digits, when it is not zero. *)
Definition datetime_iso (t : datetime) : string :=
  let s := time_of_day t / 1000000 in
  let microsecond := time_of_day t mod 1000000 in
  date_iso (date_part t) ++ "T" ++ dec_digits 2 (s / 3600) "" ++ ":"
    ++ dec_digits 2 (s / 60 mod 60) "" ++ ":" ++ dec_digits 2 (s mod 60) ""
    ++ (if microsecond =? 0 then "" else "." ++ dec_digits 6 microsecond "").

(** Sums and differences without rounding: what binary64 arithmetic gives
    as long as every number met is a whole number below [2 ^ 53], as in the
    sample data. *)
Definition exact_arithmetic : Arithmetic :=
  {| accumulator := Qc; acc_start := 0%Qc; acc_add := Qcplus;
     acc_total := fun a => a; subtract := Qcminus |}.

(** A whole amount. *)
Definition whole (z : Z) : Qc := Q2Qc (inject_Z z).

Definition noon : datetime := DateTime (Date 2024 4 1) 43200000000.

(** The two records of the spec's scenarios. *)
Definition rent : Doc.t :=
  Doc.Build 0x66a000000000000000000001%N (Date 2024 3 15) "rent"
    (whole 1200) "debit" noon noon.

Definition salary : Doc.t :=
  Doc.Build 0x66a000000000000000000002%N (Date 2024 3 20) "salary"
    (whole 3000) "credit" noon noon.

Definition ledger : mongo := Mongo [rent; salary] [].

Definition empty_ledger : mongo := Mongo [] [].

(** Requests used in the examples. *)
Definition rent_id : string := "66a000000000000000000001".
Definition stray_id : string := "66a0000000000000000000ff".
Definition malformed_id : string := "no-such-id".

Definition loan : ExpenseCreate.t :=
  ExpenseCreate.Build (Date 2024 5 2) "loan" (whole 70) "loan".

Definition refund : ExpenseCreate.t :=
  ExpenseCreate.Build (Date 2024 5 2) "refund" (whole (-5)) "debit".

Definition negative_patch : ExpenseUpdate.t :=
  ExpenseUpdate.Build None None (Some (whole (-5))) None.

(** More requests used in the examples. *)
Definition evening : datetime := DateTime (Date 2024 4 1) 75600123456.

Definition kind_patch : ExpenseUpdate.t :=
  ExpenseUpdate.Build None None None (Some "loan").

(** ** The handlers of [main.py] *)

Section Handlers.

(** [bson.ObjectId(s)]: the identifier [s] denotes, or [None] where the
    constructor raises [InvalidId]. *)
Variable ObjectId : string -> option oid.

(** [str(i)] of an [ObjectId]. *)
Variable str : oid -> string.

(** [d.isoformat()] of a [date] and of a [datetime]. *)
Variable date_isoformat : date -> string.
Variable datetime_isoformat : datetime -> string.

(** The arithmetic of the store. *)
Context {arithmetic : Arithmetic}.

Definition serialize_doc (doc : Doc.t) : Serialized.t :=
  Serialized.Build (str (Doc._id doc))
    (date_isoformat (Doc.date doc))
    (Doc.description doc) (Doc.amount doc) (Doc.kind doc)
    (datetime_isoformat (Doc.created_at doc))
    (datetime_isoformat (Doc.updated_at doc)).

(** Modelled from the spec: [create_document] of the module [database],
    which is not among the sources. Create "stamps [created_at] and
    [updated_at] to the current time; delegates insertion to the store;
    returns the new identifier". [now] is the clock's reading and [new_id]
    the identifier the document gets. *)
Definition create_document (now : datetime) (new_id : oid)
    (data : ExpenseCreate.t) : py string :=
  inserted_id ← insert_one
    (Doc.Build new_id (ExpenseCreate.date data) (ExpenseCreate.description data)
       (ExpenseCreate.amount data) (ExpenseCreate.kind data) now now);
  mret (str inserted_id).

(** Modelled from the spec: [get_documents] of the module [database], which
    is not among the sources: "predicate-based retrieval" of the records
    that match the filter. *)
Definition get_documents (filter_dict : query) : py (list Doc.t) :=
  find filter_dict.

Definition create_expense (now : datetime) (new_id : oid)
    (payload : ExpenseCreate.t) : py create_result :=
  if bool_decide (ExpenseCreate.kind payload ∉ ["debit"; "credit"])
  then raise (HTTPException 422 "kind must be 'debit' or 'credit'")
  else
    _id ← create_document now new_id payload;
    mret {| id := _id |}.

(** [if v: expr_parts.append(part v)]. *)
Definition append_if (v : option Z) (part : Z -> expr) (expr_parts : list expr)
  : list expr :=
  match v with
  | Some z => if truthy v then expr_parts ++ [part z] else expr_parts
  | None => expr_parts
  end.

(** The filter [list_expenses] hands to [get_documents]. The dict [expr] the
    source fills first is never read and is left out. *)
Definition list_query (month year : option Z) : query :=
  if truthy month || truthy year then
    let expr_parts := append_if year EqYear (append_if month EqMonth []) in
    match expr_parts with
    | [] => Everything
    | [part] => Expr part
    | _ => Expr (And expr_parts)
    end
  else Everything.

Definition list_expenses (month year : option Z) : py (list Serialized.t) :=
  docs ← get_documents (list_query month year);
  mret (serialize_doc <$> docs).

(** The [$match] stage of [get_summary], when it has one. *)
Definition summary_match (month year : option Z) : option expr :=
  let expr_parts := append_if year EqYear (append_if month EqMonth []) in
  match expr_parts with
  | [] => None
  | _ => Some (And expr_parts)
  end.

(** The [try] of the source guards against a failure of the store, which
    the model's store does not have. *)
Definition get_summary (month year : option Z) : py summary :=
  result ← aggregate_totals (summary_match month year);
  match result with
  | [] => mret (Summary 0 0 0)
  | first :: _ => mret first
  end.

(** [{d["month"]: d for d in data}]: a later entry replaces an earlier one
    under the same key. *)
Definition month_map (data : list ChartEntry.t) : gmap Z ChartEntry.t :=
  foldl (fun acc d => <[ChartEntry.month d := d]> acc) ∅ data.

Definition monthly_chart (now : datetime) (year : option Z)
  : py (list ChartEntry.t) :=
  let y := por year (year_of now) in
  data ← aggregate_by_month (Some (EqYear y));
  let month_map := month_map data in
  mret ((fun m => default (ChartEntry.Build m 0 0) (month_map !! m))
          <$> seqZ 1 12).

(** [payload.model_dump(exclude_none=True)] as the dict [updates]. *)
Definition model_dump_exclude_none (payload : ExpenseUpdate.t) : Updates.t :=
  Updates.Build
    (match ExpenseUpdate.date payload with
     | Some nothing => match nothing with end
     | None => None
     end)
    (ExpenseUpdate.description payload)
    (ExpenseUpdate.amount payload) (ExpenseUpdate.kind payload) None.

(** [updates["updated_at"] = now]. *)
Definition set_updated_at (now : datetime) (u : Updates.t) : Updates.t :=
  Updates.Build (Updates.date u) (Updates.description u) (Updates.amount u)
    (Updates.kind u) (Some now).

(** The call [ObjectId(expense_id)]. *)
Definition to_ObjectId (expense_id : string) : py oid :=
  match ObjectId expense_id with
  | Some i => mret i
  | None => raise (InvalidId expense_id)
  end.

Definition update_expense (now : datetime) (expense_id : string)
    (payload : ExpenseUpdate.t) : py update_result :=
  let updates := model_dump_exclude_none payload in
  if Updates.is_empty updates then mret {| updated := false |}
  else
    let updates := set_updated_at now updates in
    i ← to_ObjectId expense_id;
    matched_count ← update_one (IdIs i) updates;
    if matched_count =? 0
    then raise (HTTPException 404 "Expense not found")
    else mret {| updated := true |}.

Definition delete_expense (expense_id : string) : py delete_result :=
  i ← to_ObjectId expense_id;
  deleted_count ← delete_one (IdIs i);
  if deleted_count =? 0
  then raise (HTTPException 404 "Expense not found")
  else mret {| deleted := true |}.

(** ** The words of the properties *)

(** The not-found signal of [update_expense] and [delete_expense]. *)
Definition not_found {A} (o : outcome A) : Prop :=
  o = Raise (HTTPException 404 "Expense not found").

(** The payload of an update that supplies no field. *)
Definition no_fields : ExpenseUpdate.t := ExpenseUpdate.Build None None None None.

(** The spec's words for a total: the sum of [amount] over the records
    whose [kind] is [k], as the store sums. *)
Definition sum_of_kind (k : string) (docs : list Doc.t) : Qc :=
  store_sum (Doc.amount <$> filter (fun d => Doc.kind d = k) docs).

(** The transaction set a summary is taken over: every record, or the
    records the [$match] stage lets through. *)
Definition summarised (month year : option Z) (s : mongo) : list Doc.t :=
  stage_match (summary_match month year) (expense s).

(** The year [monthly_chart] charts: [year or datetime.utcnow().year]. *)
Definition charted_year (now : datetime) (year : option Z) : Z :=
  por year (year_of now).

(** Unfolds the monad and the calls to the store. *)
Ltac run :=
  cbv [mbind mret py_bind py_ret raise to_ObjectId create_document
       get_documents insert_one find update_one delete_one
       aggregate_totals aggregate_by_month].

(** The records dated in month [m], and in year [y]. *)
Definition of_month (m : Z) (docs : list Doc.t) : list Doc.t :=
  filter (fun d => doc_month d = m) docs.

Definition of_year (y : Z) (docs : list Doc.t) : list Doc.t :=
  filter (fun d => doc_year d = y) docs.

(** The group of month [m] after the documents [docs]: its two [$sum]s
    have taken the records of that month. *)
Definition month_group (docs : list Doc.t) (m : Z) : MonthGroup.t :=
  MonthGroup.Build _ m (acc_cond "debit" (of_month m docs))
    (acc_cond "credit" (of_month m docs)).

(** The entry of month [m] in the chart of [docs]: the sums over the debit
    and over the credit records of that month. *)
Definition month_entry (docs : list Doc.t) (m : Z) : ChartEntry.t :=
  ChartEntry.Build m (sum_of_kind "debit" (of_month m docs))
    (sum_of_kind "credit" (of_month m docs)).

(** ** Properties of the handlers *)

Lemma is_empty_model_dump payload :
  Updates.is_empty (model_dump_exclude_none payload) = true ↔ payload = no_fields.
Proof.
  destruct payload as [[[]|] [?|] [?|] [?|]]; cbn; split; intros Heq;
    try reflexivity; discriminate.
Qed.

Lemma modify_first_no_match q u docs :
  (∀ d, d ∈ docs → matches q d = false) → modify_first q u docs = (0, docs).
Proof.
  induction docs as [|d rest IH]; intros Hno; [reflexivity|]. cbn.
  rewrite (Hno d) by left. rewrite IH; [reflexivity|].
  intros d' Hd'. apply Hno. by right.
Qed.

Lemma remove_first_no_match q docs :
  (∀ d, d ∈ docs → matches q d = false) → remove_first q docs = (0, docs).
Proof.
  induction docs as [|d rest IH]; intros Hno; [reflexivity|]. cbn.
  rewrite (Hno d) by left. rewrite IH; [reflexivity|].
  intros d' Hd'. apply Hno. by right.
Qed.

(** C7: an update that supplies no field returns [{"updated": False}]
    whatever the identifier is; the store is left as it was: no operation is
    sent to it, and no document, so no [updated_at], changes. *)
Theorem update_expense_no_fields now expense_id s :
  update_expense now expense_id no_fields s = (Return {| updated := false |}, s)
  ∧ oplog (snd (update_expense now expense_id no_fields s)) = oplog s
  ∧ Doc.updated_at <$> expense (snd (update_expense now expense_id no_fields s))
    = Doc.updated_at <$> expense s.
Proof. repeat split. Qed.

(** C4: a create request whose kind is neither ["debit"] nor ["credit"] is
    answered with status 422 and the store is left as it was; a request whose
    kind is one of the two appends one document that holds the payload,
    stamped with the clock's reading, and returns its identifier. *)
Theorem create_expense_checks_kind now new_id payload s :
  (ExpenseCreate.kind payload ∉ ["debit"; "credit"] →
     create_expense now new_id payload s
       = (Raise (HTTPException 422 "kind must be 'debit' or 'credit'"), s))
  ∧ (ExpenseCreate.kind payload ∈ ["debit"; "credit"] →
     let doc :=
       Doc.Build new_id (ExpenseCreate.date payload)
         (ExpenseCreate.description payload) (ExpenseCreate.amount payload)
         (ExpenseCreate.kind payload) now now in
     create_expense now new_id payload s
       = (Return {| id := str new_id |},
          Mongo (expense s ++ [doc]) (oplog s ++ [InsertOne doc]))).
Proof.
  unfold create_expense. split; intros Hkind.
  - by rewrite bool_decide_eq_true_2.
  - rewrite bool_decide_eq_false_2; [reflexivity|]. by intros Hno.
Qed.

(** C8, as amended: for an identifier that [ObjectId] accepts and that no
    stored document carries, an update that supplies a field and a delete
    both raise the 404 not-found signal, and the documents are left as they
    were. *)
Theorem unknown_identifier_not_found now expense_id i payload s :
  ObjectId expense_id = Some i →
  (∀ d, d ∈ expense s → Doc._id d ≠ i) →
  (payload ≠ no_fields →
     not_found (fst (update_expense now expense_id payload s))
     ∧ expense (snd (update_expense now expense_id payload s)) = expense s)
  ∧ not_found (fst (delete_expense expense_id s))
  ∧ expense (snd (delete_expense expense_id s)) = expense s.
Proof.
  intros Hid Hnone.
  assert (Hno : ∀ d, d ∈ expense s → matches (IdIs i) d = false).
  { intros d Hd. cbn. apply bool_decide_eq_false_2. by apply Hnone. }
  split; [intros Hfields|].
  - unfold update_expense.
    destruct (Updates.is_empty (model_dump_exclude_none payload)) eqn:Hempty.
    { by apply is_empty_model_dump in Hempty. }
    run. rewrite Hid. rewrite modify_first_no_match by done. by cbn.
  - unfold delete_expense. run. rewrite Hid.
    rewrite remove_first_no_match by done. by cbn.
Qed.

(** C10, as amended: for a string that [ObjectId] refuses, a delete, and an
    update that supplies a field, raise [InvalidId], which no handler
    catches: the response is a server error and not the not-found signal,
    and the store is left as it was, no operation sent. *)
Theorem malformed_identifier_raises now expense_id payload s :
  ObjectId expense_id = None →
  delete_expense expense_id s = (Raise (InvalidId expense_id), s)
  ∧ response_status (fst (delete_expense expense_id s)) = 500
  ∧ ¬ not_found (fst (delete_expense expense_id s))
  ∧ (payload ≠ no_fields →
       update_expense now expense_id payload s = (Raise (InvalidId expense_id), s)
       ∧ response_status (fst (update_expense now expense_id payload s)) = 500
       ∧ ¬ not_found (fst (update_expense now expense_id payload s))).
Proof.
  intros Hid.
  assert (Hdel : delete_expense expense_id s = (Raise (InvalidId expense_id), s)).
  { unfold delete_expense. run. by rewrite Hid. }
  rewrite Hdel. split; [done|]. split; [done|]. split; [done|].
  intros Hfields.
  assert (Hupd : update_expense now expense_id payload s
                 = (Raise (InvalidId expense_id), s)).
  { unfold update_expense.
    destruct (Updates.is_empty (model_dump_exclude_none payload)) eqn:Hempty.
    { by apply is_empty_model_dump in Hempty. }
    run. by rewrite Hid. }
  rewrite Hupd. by split; [|split].
Qed.

Lemma acc_cond_from acc k docs :
  (∀ a, acc_add a 0%Qc = a) →
  foldl (fun acc d => acc_add acc (cond_amount k d)) acc docs
  = foldl acc_add acc (Doc.amount <$> filter (fun d => Doc.kind d = k) docs).
Proof.
  intros Hzero. revert acc.
  induction docs as [|d rest IH]; intros acc; cbn [foldl]; [done|].
  rewrite IH, filter_cons. unfold cond_amount.
  destruct (String.eqb_spec (Doc.kind d) k) as [Heq|Hne].
  - by rewrite decide_True.
  - rewrite decide_False by done. by rewrite Hzero.
Qed.

Lemma sum_cond_sum_of_kind k docs :
  (∀ a, acc_add a 0%Qc = a) → sum_cond k docs = sum_of_kind k docs.
Proof.
  intros Hzero. unfold sum_cond, acc_cond, sum_of_kind, store_sum.
  by rewrite acc_cond_from.
Qed.


(** C3: when the transaction set a summary is taken over is empty, the
    summary is [total_debit = 0], [total_credit = 0] and [balance = 0]. *)
Theorem get_summary_empty month year s :
  summarised month year s = [] →
  fst (get_summary month year s) = Return (Summary 0 0 0).
Proof.
  unfold get_summary, summarised. run. intros Hempty. by rewrite Hempty.
Qed.

Lemma add_to_group_month d groups g :
  g ∈ add_to_group d groups →
  MonthGroup.month g = doc_month d
  ∨ ∃ g', g' ∈ groups ∧ MonthGroup.month g' = MonthGroup.month g.
Proof.
  induction groups as [|g0 rest IH]; cbn [add_to_group]; intros Hg.
  - apply list_elem_of_singleton in Hg as ->. by left.
  - destruct (MonthGroup.month g0 =? doc_month d) eqn:Hm.
    + apply elem_of_cons in Hg as [->|Hg].
      * right. exists g0. split; [left|reflexivity].
      * right. exists g. split; [by right|reflexivity].
    + apply elem_of_cons in Hg as [->|Hg].
      * right. exists g0. split; [left|reflexivity].
      * destruct (IH Hg) as [Heq|(g' & Hg' & Heq)]; [by left|].
        right. exists g'. split; [by right|done].
Qed.

Lemma group_by_month_month docs g :
  g ∈ group_by_month docs →
  ∃ d, d ∈ docs ∧ doc_month d = MonthGroup.month g.
Proof.
  unfold group_by_month. revert g.
  induction docs as [|d docs IH] using rev_ind; intros g Hg.
  - by apply elem_of_nil in Hg.
  - rewrite foldl_snoc in Hg.
    destruct (add_to_group_month _ _ _ Hg) as [Heq|(g' & Hg' & Heq)].
    + exists d. split; [|done]. apply elem_of_app. right. left.
    + destruct (IH g' Hg') as (d' & Hd' & Hm).
      exists d'. split; [|congruence]. apply elem_of_app. by left.
Qed.

Lemma sort_by_month_elem_of rows e : e ∈ sort_by_month rows ↔ e ∈ rows.
Proof. unfold sort_by_month. by rewrite merge_sort_Permutation. Qed.

Lemma month_map_lookup data m e :
  month_map data !! m = Some e → ChartEntry.month e = m ∧ e ∈ data.
Proof.
  unfold month_map. revert e.
  induction data as [|d data IH] using rev_ind; intros e; cbn.
  - by rewrite lookup_empty.
  - rewrite foldl_snoc, lookup_insert. case_decide as Hkey.
    + intros [= <-]. split; [done|]. apply elem_of_app. right. left.
    + intros He. destruct (IH e He) as [Hm Hin].
      split; [done|]. apply elem_of_app. by left.
Qed.

(** X16: whatever the year argument and the stored transactions,
    [monthly_chart] returns twelve entries whose months are 1 to 12 in
    strictly ascending order, and an entry whose month has no transaction in
    the charted year, which is the year asked for or, when none or [0] is
    asked for, the year of the clock, has [debit = 0] and [credit = 0]. *)
Theorem monthly_chart_twelve_months now year s :
  ∃ complete, fst (monthly_chart now year s) = Return complete
    ∧ length complete = 12%nat
    ∧ ChartEntry.month <$> complete = [1; 2; 3; 4; 5; 6; 7; 8; 9; 10; 11; 12]
    ∧ StronglySorted Z.lt (ChartEntry.month <$> complete)
    ∧ ∀ e, e ∈ complete →
        (∀ d, d ∈ expense s →
           doc_year d = charted_year now year →
           doc_month d ≠ ChartEntry.month e) →
        ChartEntry.debit e = 0%Qc ∧ ChartEntry.credit e = 0%Qc.
Proof.
  unfold monthly_chart, charted_year. run. cbn [fst].
  set (y := por year (year_of now)).
  set (data := sort_by_month
                 (project_month
                    <$> group_by_month (stage_match (Some (EqYear y)) (expense s)))).
  set (entry := fun m => default (ChartEntry.Build m 0 0) (month_map data !! m)).
  assert (Hmonth : ∀ m, ChartEntry.month (entry m) = m).
  { intros m. unfold entry.
    destruct (month_map data !! m) as [e|] eqn:Hlook; [|done].
    by apply month_map_lookup in Hlook as [? _]. }
  assert (Hmonths : ChartEntry.month <$> (entry <$> seqZ 1 12) = seqZ 1 12).
  { rewrite <- list_fmap_compose.
    rewrite <- (list_fmap_id (seqZ 1 12)) at 2.
    apply list_fmap_ext. intros _ m _. apply Hmonth. }
  exists (entry <$> seqZ 1 12). split; [reflexivity|].
  split; [by rewrite length_fmap, length_seqZ|].
  split; [by rewrite Hmonths|].
  split.
  { rewrite Hmonths. change (seqZ 1 12) with [1; 2; 3; 4; 5; 6; 7; 8; 9; 10; 11; 12].
    repeat (constructor; [|by repeat constructor]). constructor. }
  intros e He Hnone.
  apply list_elem_of_fmap in He as (m & -> & _).
  rewrite Hmonth in Hnone. unfold entry.
  destruct (month_map data !! m) as [e|] eqn:Hlook; [exfalso|done].
  apply month_map_lookup in Hlook as [Hm Hin].
  apply sort_by_month_elem_of, list_elem_of_fmap in Hin as (g & -> & Hin).
  apply group_by_month_month in Hin as (d & Hd & Hdm).
  apply list_elem_of_filter in Hd as [Hy Hd]. cbn in Hy, Hm.
  apply (Hnone d Hd); [lia|congruence].
Qed.

Lemma modify_first_match i u docs :
  (∃ d, d ∈ docs ∧ Doc._id d = i) →
  ∃ d, d ∈ docs ∧ Doc._id d = i
    ∧ fst (modify_first (IdIs i) u docs) = 1
    ∧ set_fields u d ∈ snd (modify_first (IdIs i) u docs).
Proof.
  induction docs as [|d rest IH]; intros (d0 & Hin & Hid).
  - by apply elem_of_nil in Hin.
  - cbn [modify_first matches]. case_bool_decide as Hd.
    + exists d. split; [left|]. split; [done|]. split; [done|]. left.
    + apply elem_of_cons in Hin as [->|Hin]; [done|].
      destruct IH as (d1 & Hin1 & Hid1 & Hcount & Hset); [by exists d0|].
      exists d1. destruct (modify_first (IdIs i) u rest) as [n rest'].
      split; [by right|]. split; [done|]. split; [done|]. by right.
Qed.

(** C9, as amended: the handlers do not look at the sign of [amount]. A
    create request with a valid kind persists the amount it carries, and an
    update that supplies an amount for a stored identifier persists that
    amount, whatever its sign. *)
Theorem amount_persisted_as_given now new_id created expense_id i a patch s :
  (ExpenseCreate.kind created ∈ ["debit"; "credit"] →
     ∃ doc, expense (snd (create_expense now new_id created s))
            = (expense s ++ [doc])%list
       ∧ Doc.amount doc = ExpenseCreate.amount created)
  ∧ (ObjectId expense_id = Some i →
     ExpenseUpdate.amount patch = Some a →
     (∃ d, d ∈ expense s ∧ Doc._id d = i) →
     fst (update_expense now expense_id patch s) = Return {| updated := true |}
     ∧ ∃ d, d ∈ expense (snd (update_expense now expense_id patch s))
         ∧ Doc._id d = i ∧ Doc.amount d = a).
Proof.
  split.
  - intros Hkind. unfold create_expense.
    rewrite bool_decide_eq_false_2 by (by intros Hno). run. cbn [snd expense].
    eexists. split; reflexivity.
  - intros Hid Hamount Hstored. unfold update_expense.
    destruct (Updates.is_empty (model_dump_exclude_none patch)) eqn:Hempty.
    { apply is_empty_model_dump in Hempty. by rewrite Hempty in Hamount. }
    run. rewrite Hid.
    set (u := set_updated_at now (model_dump_exclude_none patch)).
    destruct (modify_first_match i u (expense s) Hstored)
      as (d & Hin & Hd & Hcount & Hset).
    destruct (modify_first (IdIs i) u (expense s)) as [n docs].
    cbn [fst snd] in Hcount, Hset. subst n. cbn.
    split; [done|]. exists (set_fields u d). split; [done|]. split; [done|].
    cbn. by rewrite Hamount.
Qed.

(** The filter of [list_expenses] when neither argument is [0]: a document
    matches when its month is the month asked for, if one is, and its year
    the year asked for, if one is. *)
Lemma list_query_nonzero month year d :
  month ≠ Some 0 → year ≠ Some 0 →
  matches (list_query month year) d = true
  ↔ (∀ m, month = Some m → doc_month d = m)
    ∧ (∀ y, year = Some y → doc_year d = y).
Proof.
  intros Hm Hy. unfold list_query, append_if.
  destruct month as [m|], year as [y|]; cbn [truthy].
  - destruct (Z.eqb_spec m 0) as [->|_]; [done|].
    destruct (Z.eqb_spec y 0) as [->|_]; [done|]. cbn.
    rewrite andb_true_r, andb_true_iff, !Z.eqb_eq.
    split; [intros [? ?]; split; congruence|intros [H1 H2]; auto].
  - destruct (Z.eqb_spec m 0) as [->|_]; [done|]. cbn. rewrite Z.eqb_eq.
    split; [intros ?; split; congruence|intros [H1 _]; auto].
  - destruct (Z.eqb_spec y 0) as [->|_]; [done|]. cbn. rewrite Z.eqb_eq.
    split; [intros ?; split; congruence|intros [_ H2]; auto].
  - cbn. split; [split; congruence|done].
Qed.

(** An argument of [0] is read as an argument that was not given. *)
Lemma list_query_zero_month year : list_query (Some 0) year = list_query None year.
Proof. reflexivity. Qed.

Lemma list_query_zero_year month : list_query month (Some 0) = list_query month None.
Proof. by destruct month as [m|]. Qed.

Lemma summary_match_zero month :
  summary_match (Some 0) month = summary_match None month
  ∧ summary_match month (Some 0) = summary_match month None.
Proof. by destruct month as [m|]. Qed.

(** A month other than [0] and outside 1..12, or a year other than [0] and
    outside 1..9999, matches no document that holds a [datetime.date]. *)
Lemma list_query_out_of_range month year d :
  valid_date (Doc.date d) = true →
  (∃ m, month = Some m ∧ m ≠ 0 ∧ (m < 1 ∨ 12 < m))
  ∨ (∃ y, year = Some y ∧ y ≠ 0 ∧ (y < 1 ∨ 9999 < y)) →
  matches (list_query month year) d = false.
Proof.
  unfold valid_date. intros Hvalid Hout.
  apply not_true_is_false. intros Hmatch.
  assert (Hm : 1 <= doc_month d <= 12) by (unfold doc_month; lia).
  assert (Hy : 1 <= doc_year d <= 9999) by (unfold doc_year; lia).
  destruct Hout as [(m & -> & Hm0 & Hrange)|(y & -> & Hy0 & Hrange)].
  - destruct (decide (year = Some 0)) as [->|Hyear].
    + rewrite list_query_zero_year in Hmatch.
      apply (list_query_nonzero (Some m) None) in Hmatch as [Hd _]; [|congruence|done].
      specialize (Hd m eq_refl). lia.
    + apply list_query_nonzero in Hmatch as [Hd _]; [|congruence|done].
      specialize (Hd m eq_refl). lia.
  - destruct (decide (month = Some 0)) as [->|Hmonth].
    + rewrite list_query_zero_month in Hmatch.
      apply (list_query_nonzero None (Some y)) in Hmatch as [_ Hd]; [|done|congruence].
      specialize (Hd y eq_refl). lia.
    + apply list_query_nonzero in Hmatch as [_ Hd]; [|done|congruence].
      specialize (Hd y eq_refl). lia.
Qed.

(** ** Further properties: updates and deletes *)

Lemma modify_first_at q u before d after :
  (∀ b, b ∈ before → matches q b = false) → matches q d = true →
  modify_first q u (before ++ d :: after)
  = (1, (before ++ set_fields u d :: after)%list).
Proof.
  induction before as [|b before IH]; intros Hbefore Hd; cbn [app modify_first].
  - by rewrite Hd.
  - rewrite (Hbefore b) by left. rewrite IH; [done| |done].
    intros b' Hb'. apply Hbefore. by right.
Qed.

Lemma remove_first_at q before d after :
  (∀ b, b ∈ before → matches q b = false) → matches q d = true →
  remove_first q (before ++ d :: after) = (1, (before ++ after)%list).
Proof.
  induction before as [|b before IH]; intros Hbefore Hd; cbn [app remove_first].
  - by rewrite Hd.
  - rewrite (Hbefore b) by left. rewrite IH; [done| |done].
    intros b' Hb'. apply Hbefore. by right.
Qed.

(** Where the first match stands, when there is one. *)
Lemma first_match_split q docs :
  (∀ d, d ∈ docs → matches q d = false)
  ∨ ∃ before d after, docs = (before ++ d :: after)%list
      ∧ (∀ b, b ∈ before → matches q b = false) ∧ matches q d = true.
Proof.
  induction docs as [|d docs IH]; [left; by intros d Hd; apply elem_of_nil in Hd|].
  destruct (matches q d) eqn:Hd.
  - right. exists [], d, docs. split; [done|]. split; [|done].
    by intros b Hb; apply elem_of_nil in Hb.
  - destruct IH as [Hno|(before & d' & after & -> & Hbefore & Hd')].
    + left. intros d0 Hd0. apply elem_of_cons in Hd0 as [->|Hd0]; auto.
    + right. exists (d :: before), d', after. split; [done|]. split; [|done].
      intros b Hb. apply elem_of_cons in Hb as [->|Hb]; auto.
Qed.

Lemma matches_IdIs i d : matches (IdIs i) d = true ↔ Doc._id d = i.
Proof. cbn. by rewrite bool_decide_eq_true. Qed.

Lemma not_matches_IdIs i d : matches (IdIs i) d = false ↔ Doc._id d ≠ i.
Proof. cbn. by rewrite bool_decide_eq_false. Qed.

(** An update that supplies a field, for an identifier whose first match is
    known. *)
Lemma update_expense_at now expense_id i payload before d after log :
  ObjectId expense_id = Some i →
  payload ≠ no_fields →
  (∀ b, b ∈ before → Doc._id b ≠ i) →
  Doc._id d = i →
  update_expense now expense_id payload (Mongo (before ++ d :: after) log)
  = (Return {| updated := true |},
     Mongo
       (before
        ++ set_fields (set_updated_at now (model_dump_exclude_none payload)) d
        :: after)
       (log ++ [UpdateOne (IdIs i)
                  (set_updated_at now (model_dump_exclude_none payload))])).
Proof.
  intros Hid Hfields Hbefore Hd. unfold update_expense.
  destruct (Updates.is_empty (model_dump_exclude_none payload)) eqn:Hempty.
  { by apply is_empty_model_dump in Hempty. }
  run. rewrite Hid. cbn [expense].
  rewrite modify_first_at; [done| |by apply matches_IdIs].
  intros b Hb. apply not_matches_IdIs. by apply Hbefore.
Qed.

(** X1: an update that supplies a field for a stored identifier changes the
    first document with that identifier and no other: a description, an
    amount or a kind that is supplied takes its new value, the others keep
    theirs, [date] stays, since the request cannot carry one, [updated_at]
    becomes the clock's reading cut to whole milliseconds, [_id] and
    [created_at] stay; the answer is [{"updated": True}]. *)
Theorem update_expense_patches_first_match
    now expense_id i payload before d after log :
  ObjectId expense_id = Some i →
  payload ≠ no_fields →
  (∀ b, b ∈ before → Doc._id b ≠ i) →
  Doc._id d = i →
  update_expense now expense_id payload (Mongo (before ++ d :: after) log)
  = (Return {| updated := true |},
     Mongo
       (before
        ++ Doc.Build i (Doc.date d)
             (default (Doc.description d) (ExpenseUpdate.description payload))
             (default (Doc.amount d) (ExpenseUpdate.amount payload))
             (default (Doc.kind d) (ExpenseUpdate.kind payload))
             (Doc.created_at d) (bson_datetime now)
        :: after)
       (log ++ [UpdateOne (IdIs i)
                  (set_updated_at now (model_dump_exclude_none payload))])).
Proof.
  intros Hid Hfields Hbefore Hd.
  rewrite (update_expense_at now expense_id i) by done.
  unfold set_fields. cbn. rewrite Hd.
  by destruct (ExpenseUpdate.date payload) as [[]|].
Qed.

(** The documents of the store after an update, for any request. *)
Lemma update_expense_documents now expense_id payload s :
  expense (snd (update_expense now expense_id payload s)) = expense s
  ∨ ∃ i before d after,
      ObjectId expense_id = Some i ∧ Doc._id d = i
      ∧ expense s = (before ++ d :: after)%list
      ∧ expense (snd (update_expense now expense_id payload s))
        = (before
           ++ set_fields (set_updated_at now (model_dump_exclude_none payload)) d
           :: after)%list.
Proof.
  unfold update_expense.
  destruct (Updates.is_empty (model_dump_exclude_none payload)); [by left|].
  run. destruct (ObjectId expense_id) as [i|] eqn:Hid; [|by left].
  set (u := set_updated_at now (model_dump_exclude_none payload)).
  destruct (first_match_split (IdIs i) (expense s))
    as [Hno|(before & d & after & Hdocs & Hbefore & Hd)].
  - rewrite modify_first_no_match by done. by left.
  - right. exists i, before, d, after. split; [done|].
    split; [by apply matches_IdIs|]. split; [done|].
    rewrite Hdocs, modify_first_at by done. done.
Qed.

(** X2: whatever the request and its outcome, an update keeps the number of
    documents, the [_id] and the [created_at] of each, and leaves every
    document with another identifier as it was. *)
Theorem update_expense_keeps_identity now expense_id payload s :
  Doc._id <$> expense (snd (update_expense now expense_id payload s))
    = Doc._id <$> expense s
  ∧ Doc.created_at <$> expense (snd (update_expense now expense_id payload s))
    = Doc.created_at <$> expense s
  ∧ filter (fun d => ObjectId expense_id ≠ Some (Doc._id d))
      (expense (snd (update_expense now expense_id payload s)))
    = filter (fun d => ObjectId expense_id ≠ Some (Doc._id d)) (expense s).
Proof.
  destruct (update_expense_documents now expense_id payload s)
    as [->|(i & before & d & after & Hid & Hd & -> & ->)]; [done|].
  rewrite !fmap_app, !fmap_cons, !filter_app, !filter_cons. cbn.
  rewrite !decide_False; [done|intros Hne; apply Hne; congruence..].
Qed.

(** X3: an update does not check [kind]: for a stored identifier, any
    string supplied as kind is accepted and becomes the kind of the
    document. *)
Theorem update_expense_accepts_any_kind now expense_id i k payload s :
  ObjectId expense_id = Some i →
  ExpenseUpdate.kind payload = Some k →
  (∃ d, d ∈ expense s ∧ Doc._id d = i) →
  fst (update_expense now expense_id payload s) = Return {| updated := true |}
  ∧ ∃ d, d ∈ expense (snd (update_expense now expense_id payload s))
      ∧ Doc._id d = i ∧ Doc.kind d = k.
Proof.
  intros Hid Hkind (d0 & Hin & Hd0).
  assert (Hfields : payload ≠ no_fields) by (intros ->; discriminate).
  destruct (first_match_split (IdIs i) (expense s))
    as [Hno|(before & d & after & Hdocs & Hbefore & Hd)].
  { apply Hno, not_matches_IdIs in Hin. done. }
  destruct s as [docs log]. cbn [expense] in *. subst docs.
  rewrite (update_expense_at now expense_id i payload before d after log);
    [|done|done|by intros b Hb; apply not_matches_IdIs, Hbefore
     |by apply matches_IdIs].
  cbn [fst snd expense]. split; [done|].
  eexists. split; [apply elem_of_app; right; left|].
  apply matches_IdIs in Hd. cbn. by rewrite Hkind.
Qed.

(** X4: a delete of a stored identifier removes the first document with
    that identifier and nothing else, and answers [{"deleted": True}]. *)
Theorem delete_expense_removes_first_match expense_id i before d after log :
  ObjectId expense_id = Some i →
  (∀ b, b ∈ before → Doc._id b ≠ i) →
  Doc._id d = i →
  delete_expense expense_id (Mongo (before ++ d :: after) log)
  = (Return {| deleted := true |},
     Mongo (before ++ after) (log ++ [DeleteOne (IdIs i)])).
Proof.
  intros Hid Hbefore Hd. unfold delete_expense. run. rewrite Hid. cbn [expense].
  rewrite remove_first_at; [done| |by apply matches_IdIs].
  intros b Hb. apply not_matches_IdIs. by apply Hbefore.
Qed.

(** The documents of the store after a delete, for any request. *)
Lemma delete_expense_documents expense_id s :
  expense (snd (delete_expense expense_id s)) = expense s
     ∧ (∀ i, ObjectId expense_id = Some i →
          ∀ d, d ∈ expense s → Doc._id d ≠ i)
  ∨ ∃ i before d after,
      ObjectId expense_id = Some i ∧ Doc._id d = i
      ∧ (∀ b, b ∈ before → Doc._id b ≠ i)
      ∧ expense s = (before ++ d :: after)%list
      ∧ expense (snd (delete_expense expense_id s)) = (before ++ after)%list.
Proof.
  unfold delete_expense. run.
  destruct (ObjectId expense_id) as [i|] eqn:Hid; [|by left].
  destruct (first_match_split (IdIs i) (expense s))
    as [Hno|(before & d & after & Hdocs & Hbefore & Hd)].
  - rewrite remove_first_no_match by done. left. split; [done|].
    intros ? [= <-] d Hd. by apply not_matches_IdIs, Hno.
  - right. exists i, before, d, after. split; [done|].
    split; [by apply matches_IdIs|].
    split; [by intros b Hb; apply not_matches_IdIs, Hbefore|]. split; [done|].
    rewrite Hdocs, remove_first_at by done. done.
Qed.

(** X5: whatever the request and its outcome, a delete removes at most one
    document, adds and changes none, and keeps every document with another
    identifier. *)
Theorem delete_expense_removes_at_most_one expense_id s :
  sublist (expense (snd (delete_expense expense_id s))) (expense s)
  ∧ (length (expense s)
     <= S (length (expense (snd (delete_expense expense_id s)))))%nat
  ∧ filter (fun d => ObjectId expense_id ≠ Some (Doc._id d))
      (expense (snd (delete_expense expense_id s)))
    = filter (fun d => ObjectId expense_id ≠ Some (Doc._id d)) (expense s).
Proof.
  destruct (delete_expense_documents expense_id s)
    as [[-> _]|(i & before & d & after & Hid & Hd & _ & -> & ->)].
  { split; [done|]. split; [lia|done]. }
  split; [|split].
  - apply sublist_app; [done|]. by apply sublist_cons.
  - rewrite !length_app. cbn. lia.
  - rewrite !filter_app, filter_cons.
    rewrite decide_False; [done|]. intros Hne. apply Hne. congruence.
Qed.

Lemma delete_expense_no_match expense_id i s :
  ObjectId expense_id = Some i →
  (∀ d, d ∈ expense s → Doc._id d ≠ i) →
  not_found (fst (delete_expense expense_id s)).
Proof.
  intros Hid Hno. unfold delete_expense. run. rewrite Hid.
  rewrite remove_first_no_match; [done|].
  intros d Hd. by apply not_matches_IdIs, Hno.
Qed.

Lemma update_expense_no_match now expense_id i payload s :
  ObjectId expense_id = Some i →
  payload ≠ no_fields →
  (∀ d, d ∈ expense s → Doc._id d ≠ i) →
  not_found (fst (update_expense now expense_id payload s)).
Proof.
  intros Hid Hfields Hno. unfold update_expense.
  destruct (Updates.is_empty (model_dump_exclude_none payload)) eqn:Hempty.
  { by apply is_empty_model_dump in Hempty. }
  run. rewrite Hid. rewrite modify_first_no_match; [done|].
  intros d Hd. by apply not_matches_IdIs, Hno.
Qed.

(** X6: when the stored identifiers are pairwise distinct, an identifier
    that was just deleted is gone: a second delete, and an update that
    supplies a field, both answer with the not-found signal. *)
Theorem delete_expense_then_not_found now expense_id i payload s :
  ObjectId expense_id = Some i →
  NoDup (Doc._id <$> expense s) →
  not_found (fst (delete_expense expense_id (snd (delete_expense expense_id s))))
  ∧ (payload ≠ no_fields →
     not_found (fst (update_expense now expense_id payload
                       (snd (delete_expense expense_id s))))).
Proof.
  intros Hid Hnodup.
  assert (Hgone : ∀ d, d ∈ expense (snd (delete_expense expense_id s)) →
                       Doc._id d ≠ i).
  { destruct (delete_expense_documents expense_id s)
      as [[-> Hno]|(i' & before & d & after & Hid' & Hd & Hbefore & Hdocs & ->)].
    { by apply Hno. }
    assert (i' = i) as -> by congruence.
    rewrite Hdocs, fmap_app, fmap_cons in Hnodup.
    apply NoDup_app in Hnodup as (_ & _ & Hafter).
    apply NoDup_cons in Hafter as [Hnotin _].
    intros d' Hd'. apply elem_of_app in Hd' as [Hd'|Hd']; [by apply Hbefore|].
    intros Heq. apply Hnotin. rewrite Hd, <- Heq. by apply list_elem_of_fmap_2. }
  split; [by eapply delete_expense_no_match|].
  intros Hfields. by eapply update_expense_no_match.
Qed.

(** ** Further properties: summaries and filters *)

Lemma eval_list_query_summary_match month year d :
  matches (list_query month year) d
  = match summary_match month year with
    | Some e => eval_expr e d
    | None => true
    end.
Proof.
  unfold list_query, summary_match, append_if.
  destruct month as [m|], year as [y|]; cbn [truthy];
    repeat match goal with
           | |- context [negb (?z =? 0)] => destruct (z =? 0)
           end; cbn; by rewrite ?andb_true_r.
Qed.

(** X8: for the same [month] and [year], whatever they are, the filter of
    [list_expenses] finds in the store the documents over which
    [get_summary] takes its totals, in the same order. *)
Theorem list_and_summary_read_the_same month year s :
  fst (find (list_query month year) s) = Return (summarised month year s).
Proof.
  unfold find, summarised, stage_match. cbn [fst]. f_equal.
  destruct (summary_match month year) as [e|] eqn:Hmatch.
  - apply list_filter_iff. intros d.
    by rewrite eval_list_query_summary_match, Hmatch.
  - induction (expense s) as [|d docs IH]; [done|].
    rewrite filter_cons_True, IH; [done|].
    by rewrite eval_list_query_summary_match, Hmatch.
Qed.

(** X9: for a month and a year other than [0], each given or not, the
    documents a summary is taken over are the stored documents whose date
    has the month given, if one is, and the year given, if one is. *)
Theorem summarised_by_month_and_year month year s d :
  month ≠ Some 0 → year ≠ Some 0 →
  d ∈ summarised month year s
  ↔ d ∈ expense s
    ∧ (∀ m, month = Some m → doc_month d = m)
    ∧ (∀ y, year = Some y → doc_year d = y).
Proof.
  intros Hm Hy.
  rewrite <- (list_query_nonzero month year d Hm Hy).
  rewrite eval_list_query_summary_match.
  unfold summarised, stage_match.
  destruct (summary_match month year) as [e|].
  - rewrite list_elem_of_filter. tauto.
  - tauto.
Qed.

(** ** Further properties: the monthly chart *)

Lemma of_month_snoc m docs d :
  of_month m (docs ++ [d])
  = (of_month m docs ++ if decide (doc_month d = m) then [d] else [])%list.
Proof.
  unfold of_month. rewrite filter_app, filter_cons, filter_nil.
  by destruct (decide (doc_month d = m)).
Qed.

Lemma of_month_no_record docs m :
  (∀ d, d ∈ docs → doc_month d ≠ m) → of_month m docs = [].
Proof.
  intros Hnone. unfold of_month.
  induction docs as [|d docs IH]; [done|].
  rewrite filter_cons_False by (apply Hnone; left).
  apply IH. intros d' Hd'. apply Hnone. by right.
Qed.

Lemma month_group_snoc_other docs d m :
  doc_month d ≠ m → month_group (docs ++ [d]) m = month_group docs m.
Proof.
  intros Hne. unfold month_group. rewrite of_month_snoc, decide_False by done.
  by rewrite app_nil_r.
Qed.

Lemma month_group_snoc_same docs d :
  month_group (docs ++ [d]) (doc_month d)
  = MonthGroup.Build _ (doc_month d)
      (acc_add (MonthGroup.debit (month_group docs (doc_month d)))
         (cond_amount "debit" d))
      (acc_add (MonthGroup.credit (month_group docs (doc_month d)))
         (cond_amount "credit" d)).
Proof.
  unfold month_group, acc_cond. rewrite of_month_snoc, decide_True by done.
  by rewrite !foldl_snoc.
Qed.

Lemma month_group_no_record docs m :
  (∀ d, d ∈ docs → doc_month d ≠ m) →
  month_group docs m = MonthGroup.Build _ m acc_start acc_start.
Proof.
  intros Hnone. unfold month_group. by rewrite of_month_no_record.
Qed.

Lemma add_to_group_months d groups :
  MonthGroup.month <$> add_to_group d groups
  = if decide (doc_month d ∈ MonthGroup.month <$> groups)
    then MonthGroup.month <$> groups
    else ((MonthGroup.month <$> groups) ++ [doc_month d])%list.
Proof.
  induction groups as [|g rest IH]; cbn [add_to_group].
  - rewrite decide_False; [done|]. cbn. apply not_elem_of_nil.
  - destruct (Z.eqb_spec (MonthGroup.month g) (doc_month d)) as [Heq|Hne].
    + rewrite decide_True; [done|]. rewrite fmap_cons, Heq. left.
    + rewrite !fmap_cons, IH.
      destruct (decide (doc_month d ∈ MonthGroup.month <$> rest)) as [Hin|Hnotin].
      * rewrite decide_True; [done|]. by right.
      * rewrite decide_False; [done|].
        intros Hin. apply elem_of_cons in Hin as [Heq|Hin]; [by symmetry in Heq|done].
Qed.

(** The groups after one more document, when each group before it is the
    group of its month. *)
Lemma add_to_group_entries docs d groups :
  NoDup (MonthGroup.month <$> groups) →
  (∀ g, g ∈ groups → g = month_group docs (MonthGroup.month g)) →
  (doc_month d ∉ MonthGroup.month <$> groups →
   ∀ d', d' ∈ docs → doc_month d' ≠ doc_month d) →
  ∀ g, g ∈ add_to_group d groups →
       g = month_group (docs ++ [d]) (MonthGroup.month g).
Proof.
  induction groups as [|g0 rest IH]; intros Hnodup Hentries Hfresh g Hg;
    cbn [add_to_group] in Hg.
  - apply list_elem_of_singleton in Hg as ->. cbn [MonthGroup.month].
    rewrite month_group_snoc_same, month_group_no_record; [done|].
    apply Hfresh, not_elem_of_nil.
  - rewrite fmap_cons in Hnodup. apply NoDup_cons in Hnodup as [Hg0 Hnodup].
    destruct (Z.eqb_spec (MonthGroup.month g0) (doc_month d)) as [Heq|Hne].
    + apply elem_of_cons in Hg as [->|Hg].
      * cbn [MonthGroup.month]. rewrite Heq, month_group_snoc_same.
        rewrite <- Heq, <- (Hentries g0) by left. done.
      * rewrite month_group_snoc_other; [apply Hentries; by right|].
        intros Hsame. apply Hg0. rewrite Heq, Hsame.
        by apply list_elem_of_fmap_2.
    + apply elem_of_cons in Hg as [->|Hg].
      * rewrite month_group_snoc_other by done. apply Hentries. left.
      * apply IH; [done| | |done].
        { intros g' Hg'. apply Hentries. by right. }
        intros Hnotin. apply Hfresh. rewrite fmap_cons.
        intros Hin. apply elem_of_cons in Hin as [Heq|Hin]; [by symmetry in Heq|done].
Qed.

(** The groups of [$group] by month: one per month that has a record, each
    the group of its month. *)
Lemma group_by_month_entries docs :
  NoDup (MonthGroup.month <$> group_by_month docs)
  ∧ (∀ g, g ∈ group_by_month docs → g = month_group docs (MonthGroup.month g))
  ∧ (∀ d, d ∈ docs → doc_month d ∈ MonthGroup.month <$> group_by_month docs).
Proof.
  unfold group_by_month.
  induction docs as [|d docs (Hnodup & Hentries & Hcover)] using rev_ind.
  { split; [constructor|]. split; intros x Hx; by apply elem_of_nil in Hx. }
  rewrite foldl_snoc.
  set (groups := foldl (fun groups d => add_to_group d groups) [] docs) in *.
  split; [|split].
  - rewrite add_to_group_months. case_decide as Hin; [done|].
    apply NoDup_app. split; [done|]. split; [|apply NoDup_singleton].
    intros m Hm Hm'. apply list_elem_of_singleton in Hm' as ->. done.
  - apply add_to_group_entries; [done|done|].
    intros Hnotin d' Hd' Heq. apply Hnotin. rewrite <- Heq. by apply Hcover.
  - intros d' Hd'. rewrite add_to_group_months.
    apply elem_of_app in Hd' as [Hd'|Hd'].
    + case_decide; [by apply Hcover|]. apply elem_of_app. left. by apply Hcover.
    + apply list_elem_of_singleton in Hd' as ->.
      case_decide; [done|]. apply elem_of_app. right. left.
Qed.

Lemma month_map_lookup_None data m :
  month_map data !! m = None → ∀ e, e ∈ data → ChartEntry.month e ≠ m.
Proof.
  unfold month_map.
  induction data as [|d data IH] using rev_ind; intros Hnone e He.
  - by apply elem_of_nil in He.
  - rewrite foldl_snoc in Hnone. apply lookup_insert_None in Hnone as [Hnone Hne].
    apply elem_of_app in He as [He|He]; [by apply IH|].
    by apply list_elem_of_singleton in He as ->.
Qed.

Lemma stage_match_year y docs :
  stage_match (Some (EqYear y)) docs = of_year y docs.
Proof.
  unfold stage_match, of_year. apply list_filter_iff. intros d. cbn.
  by rewrite Z.eqb_eq.
Qed.

Lemma project_month_group docs m :
  zero_is_neutral → project_month (month_group docs m) = month_entry docs m.
Proof.
  intros (Hadd & _ & _). unfold project_month, month_group, month_entry.
  cbn [MonthGroup.month MonthGroup.debit MonthGroup.credit].
  by rewrite <- !sum_cond_sum_of_kind.
Qed.

(** What [monthly_chart] returns, in the words of the entries. *)
Lemma monthly_chart_value now year s :
  zero_is_neutral →
  fst (monthly_chart now year s)
  = Return (month_entry (of_year (charted_year now year) (expense s))
              <$> seqZ 1 12).
Proof.
  intros Hzero. unfold monthly_chart, charted_year. run. cbn [fst]. f_equal.
  rewrite stage_match_year.
  set (docs := of_year (por year (year_of now)) (expense s)).
  destruct (group_by_month_entries docs) as (_ & Hentries & Hcover).
  apply list_fmap_ext. intros _ m _.
  destruct (month_map (sort_by_month (project_month <$> group_by_month docs)) !! m)
    as [e|] eqn:Hlook; cbn [default].
  - apply month_map_lookup in Hlook as [<- Hin].
    apply sort_by_month_elem_of, list_elem_of_fmap in Hin as (g & -> & Hin).
    rewrite (Hentries g Hin) at 1. by rewrite project_month_group.
  - rewrite <- project_month_group by done. rewrite month_group_no_record.
    + destruct Hzero as (_ & Hstart & _). unfold project_month. cbn.
      by rewrite Hstart.
    + intros d Hd Hm.
      apply Hcover, list_elem_of_fmap in Hd as (g & Hg & Hin).
      apply (month_map_lookup_None _ _ Hlook (project_month g)).
      * apply sort_by_month_elem_of. by apply list_elem_of_fmap_2.
      * cbn. congruence.
Qed.

(** X10: when zero is neutral for the arithmetic of the store, as it is for
    binary64, the entry of each month in the chart holds the sum of
    [amount], as the store sums, over the debit records, and over the credit
    records, that are dated in that month of the charted year; records of
    other years, of other months and of other kinds do not count. *)
Theorem monthly_chart_entries now year s :
  zero_is_neutral →
  ∃ complete, fst (monthly_chart now year s) = Return complete
    ∧ ∀ e, e ∈ complete →
        ChartEntry.debit e
        = sum_of_kind "debit"
            (of_month (ChartEntry.month e)
               (of_year (charted_year now year) (expense s)))
        ∧ ChartEntry.credit e
          = sum_of_kind "credit"
              (of_month (ChartEntry.month e)
                 (of_year (charted_year now year) (expense s))).
Proof.
  intros Hzero. eexists. split; [by apply monthly_chart_value|].
  intros e He. by apply list_elem_of_fmap in He as (m & -> & _).
Qed.

(** X12: with no year, and with year [0], [monthly_chart] charts the year
    of the clock: the answer and the operation sent to the store are those
    of a request that names that year. *)
Theorem monthly_chart_default_year now s :
  monthly_chart now None s = monthly_chart now (Some (year_of now)) s
  ∧ monthly_chart now (Some 0) s = monthly_chart now (Some (year_of now)) s.
Proof.
  assert (Hpor : por (Some (year_of now)) (year_of now) = year_of now).
  { unfold por. by destruct (Z.eqb_spec (year_of now) 0). }
  unfold monthly_chart. rewrite Hpor. by split.
Qed.

(** ** Further properties: the diagnostic handler *)

Lemma env_truthy_iff v : env_truthy v = true ↔ ∃ t, v = Some t ∧ t ≠ "".
Proof.
  destruct v as [[|c t]|]; cbn; split; try done.
  - intros (t & [= <-] & Hne). done.
  - intros _. by eexists.
  - intros (t & [=] & _).
Qed.




(** X13: in the answer of [test_database], [database_url] and
    [database_name] tell the environment only: each is ["✅ Set"] when its
    variable is set to a text that is not empty and ["❌ Not Set"] otherwise,
    whatever the database handle is; what the handle gave, its name
    included, is overwritten. *)
Theorem test_database_reports_environment db getenv :
  (Health.database_url (test_database db getenv) = Some "✅ Set"
   ↔ ∃ t, getenv "DATABASE_URL" = Some t ∧ t ≠ "")
  ∧ (Health.database_url (test_database db getenv) ≠ Some "✅ Set"
     → Health.database_url (test_database db getenv) = Some "❌ Not Set")
  ∧ (Health.database_name (test_database db getenv) = Some "✅ Set"
     ↔ ∃ t, getenv "DATABASE_NAME" = Some t ∧ t ≠ "")
  ∧ (Health.database_name (test_database db getenv) ≠ Some "✅ Set"
     → Health.database_name (test_database db getenv) = Some "❌ Not Set").
Proof.
  assert (Hurl : Health.database_url (test_database db getenv)
                 = Some (if env_truthy (getenv "DATABASE_URL")
                         then "✅ Set" else "❌ Not Set")).
  { by destruct db as [[[e'|n] [e|l]]|]. }
  assert (Hname : Health.database_name (test_database db getenv)
                  = Some (if env_truthy (getenv "DATABASE_NAME")
                          then "✅ Set" else "❌ Not Set")).
  { by destruct db as [[[e'|n] [e|l]]|]. }
  rewrite Hurl, Hname, <- !env_truthy_iff.
  destruct (env_truthy (getenv "DATABASE_URL")),
           (env_truthy (getenv "DATABASE_NAME")); repeat split; done.
Qed.


End Handlers.

(** ** The handlers on the sample data *)

(** The examples compute with [exact_arithmetic]. *)
#[local] Existing Instance exact_arithmetic.

Lemma exact_zero_is_neutral : zero_is_neutral.
Proof.
  split; [|split]; [|reflexivity|reflexivity].
  intros a. apply Qcplus_0_r.
Qed.

(** The scenarios of the spec over the two sample records. *)
Example summary_of_march_2024 :
  fst (get_summary (Some 3) (Some 2024) ledger)
  = Return (Summary (whole 1200) (whole 3000) (whole 1800)).
Proof. reflexivity. Qed.

Example summary_of_nothing :
  fst (get_summary None None empty_ledger) = Return (Summary 0 0 0).
Proof. reflexivity. Qed.

Example list_of_april_2024 :
  fst (list_expenses str_hex date_iso datetime_iso (Some 4) (Some 2024) ledger) = Return [].
Proof. reflexivity. Qed.

Example chart_of_2024 :
  fst (monthly_chart noon (Some 2024) ledger)
  = Return ((fun m => if m =? 3
                      then ChartEntry.Build 3 (whole 1200) (whole 3000)
                      else ChartEntry.Build m 0 0) <$> seqZ 1 12).
Proof. reflexivity. Qed.

(** With no year, or with year [0], the chart is that of the clock's year. *)
Example chart_of_the_current_year :
  fst (monthly_chart noon None ledger) = fst (monthly_chart noon (Some 2024) ledger)
  ∧ fst (monthly_chart noon (Some 0) ledger) = fst (monthly_chart noon (Some 2024) ledger).
Proof. split; reflexivity. Qed.

Lemma monthly_chart_april_2024 :
  ∃ complete, fst (monthly_chart noon (Some 2024) ledger) = Return complete
    ∧ ∃ e, complete !! 3%nat = Some e ∧ ChartEntry.month e = 4
        ∧ ChartEntry.debit e = 0%Qc ∧ ChartEntry.credit e = 0%Qc.
Proof.
  destruct (monthly_chart_twelve_months noon (Some 2024) ledger)
    as (complete & Hret & Hlen & Hmonths & _ & Hzero).
  exists complete. split; [exact Hret|].
  destruct (lookup_lt_is_Some_2 complete 3) as [e He]; [rewrite Hlen; lia|].
  assert (Hm : ChartEntry.month e = 4).
  { apply (f_equal (fun l => l !! 3%nat)) in Hmonths.
    rewrite list_lookup_fmap, He in Hmonths. by injection Hmonths. }
  exists e. split; [exact He|]. split; [exact Hm|].
  apply Hzero; [by eapply list_elem_of_lookup_2|].
  intros d Hd _. rewrite Hm.
  apply elem_of_cons in Hd as [->|Hd]; [done|].
  apply list_elem_of_singleton in Hd as ->. done.
Defined.

Lemma get_summary_empty_april :
  summarised (Some 4) (Some 2024) ledger = []
  ∧ fst (get_summary (Some 4) (Some 2024) ledger) = Return (Summary 0 0 0).
Proof.
  split; [reflexivity|]. apply get_summary_empty. reflexivity.
Defined.

Lemma create_expense_loan_and_refund :
  create_expense str_hex noon 7%N loan ledger
    = (Raise (HTTPException 422 "kind must be 'debit' or 'credit'"), ledger)
  ∧ fst (create_expense str_hex noon 7%N refund ledger)
    = Return {| id := "000000000000000000000007" |}.
Proof.
  split.
  - apply (create_expense_checks_kind str_hex noon 7%N loan ledger).
    vm_compute. intros H. by repeat (inversion H as [|? ? ? H']; clear H; rename H' into H).
  - pose proof (proj2 (create_expense_checks_kind str_hex noon 7%N refund ledger)) as H.
    cbv zeta in H. rewrite H; [reflexivity|]. left.
Defined.

Lemma stray_identifier_not_found :
  ObjectId_hex stray_id = Some 0x66a0000000000000000000ff%N
  ∧ not_found (fst (update_expense ObjectId_hex noon stray_id negative_patch ledger))
  ∧ not_found (fst (delete_expense ObjectId_hex stray_id ledger))
  ∧ expense (snd (delete_expense ObjectId_hex stray_id ledger)) = [rent; salary].
Proof.
  split; [reflexivity|].
  destruct (unknown_identifier_not_found ObjectId_hex noon stray_id
              0x66a0000000000000000000ff%N negative_patch ledger)
    as [Hupdate [Hdelete Hdocs]].
  - reflexivity.
  - intros d Hd.
    apply elem_of_cons in Hd as [->|Hd]; [done|].
    apply list_elem_of_singleton in Hd as ->. done.
  - split; [apply Hupdate; discriminate|]. split; [exact Hdelete|exact Hdocs].
Defined.

(** C8, as stated, fails: a string that [ObjectId] refuses matches no stored
    record, and neither the delete nor the update answers with the not-found
    signal. *)
Lemma malformed_identifier_not_reported_not_found :
  (∀ d, d ∈ expense ledger → ObjectId_hex malformed_id ≠ Some (Doc._id d))
  ∧ ¬ not_found (fst (delete_expense ObjectId_hex malformed_id ledger))
  ∧ ¬ not_found
        (fst (update_expense ObjectId_hex noon malformed_id negative_patch ledger)).
Proof. split; [done|]. split; discriminate. Qed.

Lemma negative_amount_persisted :
  (∃ doc, expense (snd (create_expense str_hex noon 7%N refund ledger))
          = [rent; salary; doc]
     ∧ (Doc.amount doc < 0)%Qc)
  ∧ ∃ d, d ∈ expense (snd (update_expense ObjectId_hex noon rent_id negative_patch ledger))
      ∧ (Doc.amount d < 0)%Qc.
Proof.
  destruct (amount_persisted_as_given ObjectId_hex str_hex noon 7%N refund rent_id
              0x66a000000000000000000001%N (whole (-5)) negative_patch ledger)
    as [Hcreate Hupdate].
  split.
  - destruct Hcreate as (doc & Hdocs & Hamount); [left|].
    exists doc. split; [exact Hdocs|]. rewrite Hamount. reflexivity.
  - destruct Hupdate as (_ & d & Hd & _ & Hamount);
      [reflexivity|reflexivity|exists rent; split; [left|reflexivity]|].
    exists d. split; [exact Hd|]. rewrite Hamount. reflexivity.
Defined.

(** C9, as stated, fails: an update that carries the amount [-5] for the
    stored record [rent] is accepted, and the record then holds [-5]. *)
Lemma update_expense_accepts_negative_amount :
  fst (update_expense ObjectId_hex noon rent_id negative_patch ledger)
    = Return {| updated := true |}
  ∧ (Doc.amount <$> expense
       (snd (update_expense ObjectId_hex noon rent_id negative_patch ledger)))
    = [whole (-5); whole 3000]
  ∧ (whole (-5) < 0)%Qc.
Proof. repeat split. Qed.

Lemma malformed_identifier_server_error :
  ObjectId_hex malformed_id = None
  ∧ delete_expense ObjectId_hex malformed_id ledger
    = (Raise (InvalidId malformed_id), ledger)
  ∧ update_expense ObjectId_hex noon malformed_id negative_patch ledger
    = (Raise (InvalidId malformed_id), ledger).
Proof.
  split; [reflexivity|].
  destruct (malformed_identifier_raises ObjectId_hex noon malformed_id
              negative_patch ledger) as (Hdelete & _ & _ & Hupdate);
    [reflexivity|].
  split; [exact Hdelete|]. apply Hupdate. discriminate.
Defined.

(** C10, as stated, fails: an update that supplies no field returns
    [{"updated": False}] for a string that [ObjectId] refuses; nothing is
    raised, since [ObjectId] is not reached. *)
Lemma update_expense_no_fields_malformed_identifier :
  ObjectId_hex malformed_id = None
  ∧ update_expense ObjectId_hex noon malformed_id no_fields ledger
    = (Return {| updated := false |}, ledger).
Proof. split; reflexivity. Qed.

(** C1 at [year = 0]: no stored record is dated in year [0], the clock
    reads 2024, and the entry of March holds the debit and the credit of
    March 2024 instead of [0] and [0]. *)
Theorem monthly_chart_year_zero :
  filter (fun d => doc_year d = 0) (expense ledger) = []
  ∧ fst (monthly_chart noon (Some 0) ledger)
    = Return ((fun m => if m =? 3
                        then ChartEntry.Build 3 (whole 1200) (whole 3000)
                        else ChartEntry.Build m 0 0) <$> seqZ 1 12).
Proof. split; reflexivity. Qed.

(** C5 at [month = 0]: only a month is supplied, no stored record has month
    [0], and [list_expenses] returns every record. *)
Theorem list_expenses_month_zero :
  list_query (Some 0) None = Everything
  ∧ fst (list_expenses str_hex date_iso datetime_iso (Some 0) None ledger)
    = Return (serialize_doc str_hex date_iso datetime_iso <$> [rent; salary])
  ∧ filter (fun d => doc_month d = 0) (expense ledger) = [].
Proof. repeat split. Qed.

(** C6 at [year = 0] and at [month = 0]: the value is out of range, and the
    list and the summary cover every record instead of none. *)
Theorem out_of_range_zero_matches_everything :
  list_query None (Some 0) = Everything
  ∧ summary_match (Some 0) None = None
  ∧ fst (list_expenses str_hex date_iso datetime_iso None (Some 0) ledger)
    = Return (serialize_doc str_hex date_iso datetime_iso <$> [rent; salary])
  ∧ fst (get_summary (Some 0) None ledger)
    = Return (Summary (whole 1200) (whole 3000) (whole 1800))
  ∧ fst (get_summary None (Some 0) ledger)
    = Return (Summary (whole 1200) (whole 3000) (whole 1800)).
Proof. repeat split. Qed.

(** ** The further properties on the sample data *)

Lemma update_expense_rent_amount :
  update_expense ObjectId_hex evening rent_id negative_patch ledger
  = (Return {| updated := true |},
     Mongo
       [Doc.Build 0x66a000000000000000000001%N (Date 2024 3 15) "rent"
          (whole (-5)) "debit" noon (DateTime (Date 2024 4 1) 75600123000);
        salary]
       [UpdateOne (IdIs 0x66a000000000000000000001%N)
          (Updates.Build None None (Some (whole (-5))) None (Some evening))]).
Proof.
  apply (update_expense_patches_first_match ObjectId_hex evening rent_id
           0x66a000000000000000000001%N negative_patch [] rent [salary] []).
  - reflexivity.
  - discriminate.
  - intros b Hb. by apply elem_of_nil in Hb.
  - reflexivity.
Defined.

Lemma update_expense_rent_kind :
  fst (update_expense ObjectId_hex evening rent_id kind_patch ledger)
    = Return {| updated := true |}
  ∧ ∃ d, d ∈ expense (snd (update_expense ObjectId_hex evening rent_id
                             kind_patch ledger))
      ∧ Doc._id d = 0x66a000000000000000000001%N ∧ Doc.kind d = "loan".
Proof.
  apply (update_expense_accepts_any_kind ObjectId_hex evening rent_id
           0x66a000000000000000000001%N "loan" kind_patch ledger).
  - reflexivity.
  - reflexivity.
  - exists rent. split; [left|reflexivity].
Defined.

Lemma delete_expense_rent :
  delete_expense ObjectId_hex rent_id ledger
  = (Return {| deleted := true |},
     Mongo [salary] [DeleteOne (IdIs 0x66a000000000000000000001%N)]).
Proof.
  apply (delete_expense_removes_first_match ObjectId_hex rent_id
           0x66a000000000000000000001%N [] rent [salary] []).
  - reflexivity.
  - intros b Hb. by apply elem_of_nil in Hb.
  - reflexivity.
Defined.

Lemma delete_expense_rent_twice :
  not_found (fst (delete_expense ObjectId_hex rent_id
                    (snd (delete_expense ObjectId_hex rent_id ledger))))
  ∧ not_found (fst (update_expense ObjectId_hex evening rent_id negative_patch
                      (snd (delete_expense ObjectId_hex rent_id ledger)))).
Proof.
  destruct (delete_expense_then_not_found ObjectId_hex evening rent_id
              0x66a000000000000000000001%N negative_patch ledger)
    as [Hdelete Hupdate].
  - reflexivity.
  - apply NoDup_cons. split; [|apply NoDup_singleton].
    intros Hin. apply list_elem_of_singleton in Hin. discriminate.
  - split; [exact Hdelete|]. apply Hupdate. discriminate.
Defined.


Lemma monthly_chart_entries_2024 :
  ∃ complete, fst (monthly_chart noon (Some 2024) ledger) = Return complete
    ∧ ∀ e, e ∈ complete →
        ChartEntry.debit e
        = sum_of_kind "debit"
            (of_month (ChartEntry.month e)
               (of_year (charted_year noon (Some 2024)) (expense ledger)))
        ∧ ChartEntry.credit e
          = sum_of_kind "credit"
              (of_month (ChartEntry.month e)
                 (of_year (charted_year noon (Some 2024)) (expense ledger))).
Proof.
  apply (monthly_chart_entries noon (Some 2024) ledger).
  exact exact_zero_is_neutral.
Defined.

Lemma summarised_march :
  rent ∈ summarised (Some 3) None ledger
  ↔ rent ∈ expense ledger
    ∧ (∀ m, Some 3 = Some m → doc_month rent = m)
    ∧ (∀ y, None = Some y → doc_year rent = y).
Proof.
  apply (summarised_by_month_and_year (Some 3) None ledger rent); discriminate.
Defined.

(** The diagnostic handler with a store that lists twelve collections and
    an environment that sets [DATABASE_URL] to the empty text. *)
Example test_database_twelve_collections :
  Health.collections
    (test_database
       (Some (Database (inr (Some "ledger"))
                (inr ["a"; "b"; "c"; "d"; "e"; "f"; "g"; "h"; "i"; "j"; "k"; "l"])))
       (fun k => if String.eqb k "DATABASE_URL" then Some "" else None))
  = ["a"; "b"; "c"; "d"; "e"; "f"; "g"; "h"; "i"; "j"]
  ∧ Health.database_name
      (test_database
         (Some (Database (inr (Some "ledger")) (inr [])))
         (fun k => if String.eqb k "DATABASE_URL" then Some "" else None))
    ≠ Some "ledger".
Proof. split; [reflexivity|discriminate]. Qed.
